(** * The Airweave search tool for the Vercel AI SDK

    A shallow embedding of [src/index.ts]: the factory [airweaveSearch],
    the input schema of the tool it returns and the tool's [execute]
    function, with the remote Airweave client as an explicit collaborator
    whose calls are recorded in a log. *)

From Stdlib Require Import String Ascii List Bool ZArith Lia Floats.
Import ListNotations.
Local Open Scope string_scope.
Local Open Scope list_scope.
Set Warnings "-register-all".

(** ** JavaScript values

    A [number] is an IEEE 754 binary64, which is what [PrimFloat.float] is.
    A string is held in UTF-8, as the string literals of this file are;
    its [.length] counts UTF-16 code units and is [js_length] below.  An
    object is the list of its own properties in insertion order. *)

Inductive value : Type :=
| VUndefined
| VNull
| VBool (b : bool)
| VNumber (x : float)
| VString (s : string)
| VArray (items : list value)
| VObject (props : list (string * value)).

(** [o[key]]: the value of an own property, [undefined] when it is absent. *)
Fixpoint get (props : list (string * value)) (key : string) : value :=
  match props with
  | [] => VUndefined
  | (k, v) :: rest => if String.eqb k key then v else get rest key
  end.

(** [key in o]: whether the object has the property at all. *)
Fixpoint has_key (props : list (string * value)) (key : string) : bool :=
  match props with
  | [] => false
  | (k, _) :: rest => String.eqb k key || has_key rest key
  end.

(** ToBoolean: [undefined], [null], [false], [0], [-0], [NaN] and the empty
    string are falsy, everything else is truthy. *)
Definition truthy (v : value) : bool :=
  match v with
  | VUndefined | VNull => false
  | VBool b => b
  | VNumber x => negb (PrimFloat.is_nan x || PrimFloat.is_zero x)
  | VString s => negb (String.eqb s "")
  | VArray _ | VObject _ => true
  end.

(** [a && b] *)
Definition js_and (a b : value) : value := if truthy a then b else a.

(** [a ?? b] on an optional (possibly [undefined]) operand. *)
Definition nullish {A : Type} (a : option A) (b : A) : A :=
  match a with
  | Some x => x
  | None => b
  end.

(** ** Strings

    In UTF-8 a code point takes one to four bytes: a leading byte and
    continuation bytes [10xxxxxx].  A code point up to U+FFFF is one UTF-16
    code unit; a code point above, which is what a four-byte sequence with
    its leading byte [11110xxx] holds, is two, a surrogate pair. *)

Definition continuation (c : ascii) : bool :=
  (128 <=? N_of_ascii c)%N && (N_of_ascii c <? 192)%N.

Definition lead4 (c : ascii) : bool :=
  (240 <=? N_of_ascii c)%N && (N_of_ascii c <? 248)%N.

(** [s.length]: the number of UTF-16 code units. *)
Fixpoint js_length (s : string) : nat :=
  match s with
  | EmptyString => 0
  | String c rest =>
      (if continuation c then 0 else if lead4 c then 2 else 1)
      + js_length rest
  end.

(** The byte sequences of the code points of a string, next to the
    continuation bytes met before any leading byte. *)
Fixpoint sequences (s : string) : string * list string :=
  match s with
  | EmptyString => (EmptyString, [])
  | String c rest =>
      let (pending, done) := sequences rest in
      if continuation c then (String c pending, done)
      else (EmptyString, String c pending :: done)
  end.

Definition byte_at (n : nat) (s : string) : N :=
  match String.get n s with
  | Some c => N_of_ascii c
  | None => 0%N
  end.

(** A code unit from U+0800 on, as a string: the three-byte form, which
    also stands for a surrogate on its own. *)
Definition unit_string (u : N) : string :=
  String (ascii_of_N (224 + u / 4096))
    (String (ascii_of_N (128 + (u / 64) mod 64))
       (String (ascii_of_N (128 + u mod 64)) EmptyString)).

(** The surrogate pair of the code point of a four-byte sequence. *)
Definition surrogates (seq : string) : list string :=
  let cp := ((byte_at 0 seq mod 8) * 262144 + (byte_at 1 seq mod 64) * 4096
             + (byte_at 2 seq mod 64) * 64 + byte_at 3 seq mod 64)%N in
  let v := (cp - 65536)%N in
  [unit_string (55296 + v / 1024); unit_string (56320 + v mod 1024)].

(** The code units of a string, each as a string of its own: what
    indexing the string gives. *)
Definition code_units (s : string) : list string :=
  flat_map
    (fun seq =>
       match seq with
       | String c _ => if lead4 c then surrogates seq else [seq]
       | EmptyString => []
       end)
    (snd (sequences s)).

(** Decimal property names, for the indices of strings and arrays. *)
Fixpoint digits (fuel n : nat) (acc : string) : string :=
  match fuel with
  | O => acc
  | S fuel' =>
      let d := String (ascii_of_nat (48 + n mod 10)) acc in
      if Nat.ltb n 10 then d else digits fuel' (n / 10) d
  end.

Definition index_name (n : nat) : string := digits (S n) n "".

Fixpoint indexed {A : Type} (i : nat) (f : A -> value) (xs : list A)
  : list (string * value) :=
  match xs with
  | [] => []
  | x :: rest => (index_name i, f x) :: indexed (S i) f rest
  end.

(** The own enumerable properties that [...v] copies into an object
    literal: none for [undefined], [null], booleans and numbers. *)
Definition own_properties (v : value) : list (string * value) :=
  match v with
  | VObject props => props
  | VArray items => indexed 0 (fun x => x) items
  | VString s => indexed 0 VString (code_units s)
  | VUndefined | VNull | VBool _ | VNumber _ => []
  end.

(** Defining a property in an object literal: a later definition of the
    same name replaces the value and keeps the position. *)
Fixpoint define (props : list (string * value)) (key : string) (v : value)
  : list (string * value) :=
  match props with
  | [] => [(key, v)]
  | (k, w) :: rest =>
      if String.eqb k key then (k, v) :: rest
      else (k, w) :: define rest key v
  end.

Definition spread (props : list (string * value)) (v : value)
  : list (string * value) :=
  fold_left (fun acc kv => define acc (fst kv) (snd kv))
            (own_properties v) props.

(** [Number.isInteger]: finite with no fractional part, read off the
    mantissa and exponent of the number. *)
Definition isInteger (x : float) : bool :=
  match Prim2SF x with
  | S754_zero _ => true
  | S754_finite _ m e => (0 <=? e)%Z || (Z.pos m mod 2 ^ (- e) =? 0)%Z
  | S754_infinity _ | S754_nan => false
  end.

(** ** The validation library

    The combinators of [zod] that [inputSchema] is built from.  A schema
    either accepts a value and yields the typed datum or rejects it. *)

Module Zod.

Definition schema (A : Type) : Type := value -> option A.

Definition refine {A : Type} (ok : A -> bool) (s : schema A) : schema A :=
  fun v =>
    match s v with
    | Some a => if ok a then Some a else None
    | None => None
    end.

(** [z.string()] *)
Definition string_ : schema string :=
  fun v => match v with VString s => Some s | _ => None end.

(** [.min(n)] on a string: rejected when [data.length < n]. *)
Definition str_min (n : nat) : schema string -> schema string :=
  refine (fun s => negb (Nat.ltb (js_length s) n)).

(** [.max(n)] on a string: rejected when [data.length > n]. *)
Definition str_max (n : nat) : schema string -> schema string :=
  refine (fun s => negb (Nat.ltb n (js_length s))).

(** [z.number()]: a value of type number other than [NaN]. *)
Definition number_ : schema float :=
  fun v =>
    match v with
    | VNumber x => if PrimFloat.is_nan x then None else Some x
    | _ => None
    end.

(** [.min(c)] on a number: rejected when [data < c]. *)
Definition num_min (c : float) : schema float -> schema float :=
  refine (fun x => negb (PrimFloat.ltb x c)).

(** [.max(c)] on a number: rejected when [data > c]. *)
Definition num_max (c : float) : schema float -> schema float :=
  refine (fun x => negb (PrimFloat.ltb c x)).

(** [.optional()]: [undefined] is accepted as it is. *)
Definition optional {A : Type} (s : schema A) : schema (option A) :=
  fun v =>
    match v with
    | VUndefined => Some None
    | _ => option_map Some (s v)
    end.

(** One field of [z.object({...})]: the schema applied to [data[key]]. *)
Definition field {A : Type} (key : string) (s : schema A)
  (props : list (string * value)) : option A :=
  s (get props key).

End Zod.

(** ** The tool's input *)

Module Input.
Record t : Type := Build {
  query : string;
  collection : option string;
  limit : option float;
}.
End Input.

(** The three field schemas of [inputSchema]. *)
Definition query_schema : Zod.schema string :=
  Zod.str_max 1000 (Zod.str_min 1 Zod.string_).

Definition collection_schema : Zod.schema (option string) :=
  Zod.optional Zod.string_.

Definition limit_schema : Zod.schema (option float) :=
  Zod.optional (Zod.num_max 100 (Zod.num_min 1 Zod.number_)).

(** [inputSchema = z.object({ query, collection, limit })]: the input has
    to be an object, each field is validated, other keys are dropped. *)
Definition inputSchema : Zod.schema Input.t :=
  fun v =>
    match v with
    | VObject props =>
        match Zod.field "query" query_schema props,
              Zod.field "collection" collection_schema props,
              Zod.field "limit" limit_schema props with
        | Some q, Some c, Some l => Some (Input.Build q c l)
        | _, _, _ => None
        end
    | _ => None
    end.

(** ** The factory's configuration: [AirweaveSearchOptions] *)

Module Options.
Record t : Type := Build {
  apiKey : option string;
  baseUrl : option string;
  defaultCollection : option string;
  defaultLimit : option float;
  generateAnswer : option bool;
  expandQuery : option bool;
  rerank : option bool;
}.

(** [{}], the default of the factory's parameter. *)
Definition empty : t := Build None None None None None None None.
End Options.

(** ** The remote client *)

(** The options [new AirweaveSDKClient({...})] is built with. *)
Module Client.
Record t : Type := Build {
  apiKey : string;
  baseUrl : option string;
  frameworkName : string;
  frameworkVersion : string;
}.
End Client.

(** The body of a search request. *)
Module Request.
Record t : Type := Build {
  query : string;
  limit : float;
  generate_answer : bool;
  expand_query : bool;
  rerank : bool;
}.
End Request.

(** What [client.collections.search] resolves to: the fields the adapter
    reads.  [completion] is the value of [response.completion],
    [undefined] when the response has no such field. *)
Module Response.
Record t : Type := Build {
  results : list value;
  completion : value;
}.
End Response.

(** One call [client.collections.search(collectionId, request)], as a stub
    of the client records it. *)
Module Call.
Record t : Type := Build {
  client : Client.t;
  collectionId : string;
  request : Request.t;
}.
End Call.

(** The calls issued so far, oldest first. *)
Definition Log : Type := list Call.t.

(** ** Computations

    A computation runs from a log of remote calls to an outcome and the
    extended log.  It either returns, or throws: an [Error] the adapter
    builds with [new Error(message)], or whatever the promise of the remote
    call was rejected with, untouched.  [InvalidToolInput] is the host
    framework's refusal of an input that [inputSchema] rejects. *)

Inductive thrown (E : Type) : Type :=
| Error (message : string)
| Rejection (e : E)
| InvalidToolInput.

Arguments Error {E} message.
Arguments Rejection {E} e.
Arguments InvalidToolInput {E}.

Inductive outcome (E A : Type) : Type :=
| Returned (a : A)
| Thrown (t : thrown E).

Arguments Returned {E A} a.
Arguments Thrown {E A} t.

Definition Js (E A : Type) : Type := Log -> outcome E A * Log.

Definition ret {E A : Type} (a : A) : Js E A :=
  fun log => (Returned a, log).

Definition throw {E A : Type} (t : thrown E) : Js E A :=
  fun log => (Thrown t, log).

Definition bind {E A B : Type} (m : Js E A) (k : A -> Js E B) : Js E B :=
  fun log =>
    match m log with
    | (Returned a, log') => k a log'
    | (Thrown t, log') => (Thrown t, log')
    end.

Declare Scope js_scope.
Delimit Scope js_scope with js.
Notation "x <- m ;; k" := (bind m (fun x => k))
  (at level 61, m at next level, right associativity) : js_scope.

(** The calls a run added to the log it started from. *)
Definition issued (before after : Log) : Log :=
  skipn (length before) after.

(** The tool descriptor that [tool({...})] returns. *)
Module Tool.
Record t (E : Type) : Type := Build {
  description : string;
  inputSchema : Zod.schema Input.t;
  execute : Input.t -> Js E value;
}.
Arguments Build {E}.
Arguments description {E}.
Arguments inputSchema {E}.
Arguments execute {E}.
End Tool.

(** What [execute] closes over: the client and the destructured options
    with their defaults applied. *)
Module Config.
Record t : Type := Build {
  client : Client.t;
  defaultCollection : option string;
  defaultLimit : float;
  generateAnswer : bool;
  expandQuery : bool;
  rerank : bool;
}.
End Config.

(** A destructuring default [{ x = d } = options]. *)
Definition or_default {A : Type} (field : option A) (d : A) : A :=
  match field with
  | Some x => x
  | None => d
  end.

(** [a ?? b], and the destructuring default [{ a = b }], when [b] may be
    [undefined] as well: both fall back to [b] exactly when [a] is absent. *)
Definition or_else {A : Type} (a b : option A) : option A :=
  match a with
  | Some x => Some x
  | None => b
  end.

(** An optional string that is truthy: present and not empty. *)
Definition truthy_string (s : option string) : option string :=
  match s with
  | Some x => if truthy (VString x) then Some x else None
  | None => None
  end.

Definition apiKey_required : string :=
  "Airweave API key is required. Set AIRWEAVE_API_KEY environment variable or pass apiKey option.".

Definition collection_required : string :=
  "Collection is required. Pass collection in the query or set defaultCollection option.".

Definition tool_description : string :=
  "Search across your synced data sources (Notion, Slack, Google Drive, databases, 100+ apps) using Airweave semantic search.".

Section Adapter.

(** What a failed remote call is rejected with. *)
Variable RemoteFailure : Type.

(** The remote service behind the client: its answer to a call, given
    the calls made before. *)
Variable service : Log -> Call.t -> RemoteFailure + Response.t.

(** [process.env] *)
Variable process_env : string -> option string.

Local Open Scope js_scope.

(** [await client.collections.search(collectionId, request)] *)
Definition collections_search (client : Client.t) (collectionId : string)
  (request : Request.t) : Js RemoteFailure Response.t :=
  fun log =>
    let call := Call.Build client collectionId request in
    (match service log call with
     | inr response => Returned response
     | inl e => Thrown (Rejection e)
     end, (log ++ [call])%list).

(** The request body that [execute] sends. *)
Definition search_request (cfg : Config.t) (input : Input.t) : Request.t :=
  Request.Build
    (Input.query input)
    (nullish (Input.limit input) (Config.defaultLimit cfg))
    (Config.generateAnswer cfg)
    (Config.expandQuery cfg)
    (Config.rerank cfg).

(** The object that [execute] returns:
    [{ results: response.results,
       ...(response.completion && { answer: response.completion }) }] *)
Definition search_result (response : Response.t) : value :=
  VObject
    (spread
       [("results", VArray (Response.results response))]
       (js_and (Response.completion response)
          (VObject [("answer", Response.completion response)]))).

(** The call that [execute] issues once the collection is resolved, as
    the client's stub records it. *)
Definition the_call (cfg : Config.t) (collectionId : string)
  (input : Input.t) : Call.t :=
  Call.Build (Config.client cfg) collectionId (search_request cfg input).

(** The [execute] function of the tool. *)
Definition execute (cfg : Config.t) (input : Input.t)
  : Js RemoteFailure value :=
  let collectionId :=
    or_else (Input.collection input) (Config.defaultCollection cfg) in
  match truthy_string collectionId with
  | None => throw (Error collection_required)
  | Some collectionId =>
      response <- collections_search (Config.client cfg) collectionId
                    (search_request cfg input) ;;
      ret (search_result response)
  end.

(** The closure that a successful construction leaves [execute] with. *)
Definition configure (apiKey : string) (options : Options.t) : Config.t :=
  Config.Build
    (Client.Build apiKey
       (truthy_string (Options.baseUrl options))
       "vercel-ai-sdk" "1.0.0")
    (Options.defaultCollection options)
    (or_default (Options.defaultLimit options) 10%float)
    (or_default (Options.generateAnswer options) false)
    (or_default (Options.expandQuery options) true)
    (or_default (Options.rerank options) true).

(** The factory. *)
Definition airweaveSearch (options : Options.t)
  : Js RemoteFailure (Tool.t RemoteFailure) :=
  let apiKey :=
    or_else (Options.apiKey options) (process_env "AIRWEAVE_API_KEY") in
  match truthy_string apiKey with
  | None => throw (Error apiKey_required)
  | Some apiKey =>
      ret (Tool.Build tool_description inputSchema
             (execute (configure apiKey options)))
  end.

(** How the host framework calls a tool: the input is validated against
    the tool's schema first, and [execute] only runs on what the schema
    accepted. *)
Definition invoke (tool : Tool.t RemoteFailure) (input : value)
  : Js RemoteFailure value :=
  match Tool.inputSchema tool input with
  | Some parsed => Tool.execute tool parsed
  | None => throw InvalidToolInput
  end.

End Adapter.

Arguments collections_search {RemoteFailure}.
Arguments execute {RemoteFailure}.
Arguments airweaveSearch {RemoteFailure}.
Arguments invoke {RemoteFailure}.

(** ** Stubs of the collaborators

    A remote service that answers every call with one document and no
    completion, one that answers with a completion, one that rejects every
    call, and an environment that holds a key. *)

Definition doc : value :=
  VObject [("id", VString "a1");
           ("score", VNumber 0x1.ccccccccccccdp-1%float);
           ("payload", VObject [("name", VString "Doc")])].

Definition doc_response : Response.t := Response.Build [doc] VUndefined.

Definition service_doc : Log -> Call.t -> string + Response.t :=
  fun _ _ => inr doc_response.

Definition service_answer : Log -> Call.t -> string + Response.t :=
  fun _ _ => inr (Response.Build [doc] (VString "X")).

Definition service_down : Log -> Call.t -> string + Response.t :=
  fun _ _ => inl "503 Service Unavailable".

Definition env_with_key : string -> option string :=
  fun name => if String.eqb name "AIRWEAVE_API_KEY" then Some "sk-test" else None.

Definition env_empty : string -> option string := fun _ => None.

(** [{ defaultCollection: "kb1", defaultLimit: 10 }] *)
Definition kb1_options : Options.t :=
  Options.Build None None (Some "kb1") (Some 10%float) None None None.

(** [{ defaultCollection: "kb1" }] *)
Definition kb1_only : Options.t :=
  Options.Build None None (Some "kb1") None None None None.

(** [{ query: "budget" }] *)
Definition budget_input : Input.t := Input.Build "budget" None None.

(** A string of [n] copies of a string. *)
Fixpoint repeat_string (s : string) (n : nat) : string :=
  match n with
  | O => ""
  | S n' => String.append s (repeat_string s n')
  end.

(** A string of [n] copies of one character. *)
Fixpoint repeat_char (c : ascii) (n : nat) : string :=
  match n with
  | O => ""
  | S n' => String c (repeat_char c n')
  end.

(** ** Callers

    A caller that executes one tool on several inputs in turn, each
    execution on the log the previous one left, whatever its outcome. *)

Fixpoint execute_each {E : Type} (tool : Tool.t E) (inputs : list Input.t)
  (log : Log) : list (outcome E value) * Log :=
  match inputs with
  | [] => ([], log)
  | input :: rest =>
      let (r, log') := Tool.execute tool input log in
      let (rs, log'') := execute_each tool rest log' in
      (r :: rs, log'')
  end.

(** *** The end-to-end script [tests/e2e.ts]

    The checks it makes before any test runs, and the direct execution of
    its third test: the construction of [directSearch] and the call of its
    [execute].  What the script prints after that call is not part of
    the model. *)

Definition requiredEnvVars : list string :=
  ["AIRWEAVE_API_KEY"; "OPENAI_API_KEY"].

(** [!process.env[v]] *)
Definition unset (env : string -> option string) (v : string) : bool :=
  match truthy_string (env v) with
  | Some _ => false
  | None => true
  end.

(** [requiredEnvVars.filter(v => !process.env[v])] *)
Definition missing (env : string -> option string) : list string :=
  filter (unset env) requiredEnvVars.

Definition newline : string := String (ascii_of_nat 10) "".

(** How the script starts: it leaves with [process.exit(code)] after
    writing to the error stream, or goes on with [COLLECTION]. *)
Inductive startup : Type :=
| Exit (code : nat) (stderr : list string)
| Ready (COLLECTION : string).

Definition preflight (env : string -> option string) : startup :=
  if Nat.ltb 0 (length (missing env)) then
    Exit 1
      [String.append "❌ Missing required environment variables: "
         (String.concat ", " (missing env));
       String.append newline "Usage:";
       "  AIRWEAVE_API_KEY=xxx OPENAI_API_KEY=xxx npx tsx tests/e2e.ts"]
  else
    match truthy_string (env "AIRWEAVE_COLLECTION") with
    | None =>
        Exit 1
          ["❌ Missing AIRWEAVE_COLLECTION environment variable";
           String.append newline "Usage:";
           "  AIRWEAVE_API_KEY=xxx OPENAI_API_KEY=xxx AIRWEAVE_COLLECTION=my-collection npx tsx tests/e2e.ts"]
    | Some COLLECTION => Ready COLLECTION
    end.

(** The options of [directSearch]:
    [{ defaultCollection: COLLECTION,
       ...(process.env.AIRWEAVE_BASE_URL && { baseUrl: ... }),
       generateAnswer: true }] *)
Definition directSearch_options (env : string -> option string)
  (COLLECTION : string) : Options.t :=
  Options.Build None (truthy_string (env "AIRWEAVE_BASE_URL"))
    (Some COLLECTION) None (Some true) None None.

(** [directSearch.execute({ query: 'test', limit: 5 }, ...)] on the tool
    just built. *)
Definition direct_execution {E : Type}
  (service : Log -> Call.t -> E + Response.t)
  (env : string -> option string) (COLLECTION : string) : Js E value :=
  (directSearch <- airweaveSearch service env
                     (directSearch_options env COLLECTION) ;;
   Tool.execute directSearch (Input.Build "test" None (Some 5%float)))%js.

(** An environment as the script needs it, and one without the model key. *)
Definition env_e2e : string -> option string :=
  fun name =>
    if String.eqb name "AIRWEAVE_API_KEY" then Some "sk-test"
    else if String.eqb name "OPENAI_API_KEY" then Some "sk-openai"
    else if String.eqb name "AIRWEAVE_COLLECTION" then Some "kb1"
    else if String.eqb name "AIRWEAVE_BASE_URL" then Some ""
    else None.

(** The whole numbers from 1 to 100, as numbers. *)
Definition whole (n : nat) : float :=
  PrimFloat.of_uint63 (Uint63.of_Z (Z.of_nat n)).

(** * Properties *)

(** ** Numbers: the range check of the [limit] schema *)

Lemma SF_pos_flip (m c : positive) (e k : Z) :
  SFcompare (S754_finite false c k) (S754_finite false m e)
  = option_map CompOpp
      (SFcompare (S754_finite false m e) (S754_finite false c k)).
Proof.
  unfold SFcompare, option_map. f_equal.
  rewrite (Z.compare_antisym e k).
  destruct (e ?= k)%Z; simpl; [ | reflexivity | reflexivity].
  change (Pos.compare_cont Eq c m) with (Pos.compare c m).
  change (Pos.compare_cont Eq m c) with (Pos.compare m c).
  apply Pos.compare_antisym.
Qed.

Lemma SF_pos_compare (m c : positive) (e k : Z) :
  exists o,
    SFcompare (S754_finite false m e) (S754_finite false c k) = Some o.
Proof. unfold SFcompare. eexists. reflexivity. Qed.

Lemma SF_self (s : spec_float) :
  SFeqb s s = match s with S754_nan => false | _ => true end.
Proof.
  destruct s as [b | b | | b m e].
  - reflexivity.
  - destruct b; reflexivity.
  - reflexivity.
  - unfold SFeqb, SFcompare. rewrite Z.compare_refl.
    change (Pos.compare_cont Eq m m) with (Pos.compare m m).
    rewrite Pos.compare_refl. destruct b; reflexivity.
Qed.

(** Between two positive bounds, "a number, not below the lower bound and
    not above the upper one" is "at least the lower and at most the upper":
    [NaN] compares false with everything. *)
Lemma SF_between (s : spec_float) (c1 c2 : positive) (k1 k2 : Z) :
  SFeqb s s
  && negb (SFltb s (S754_finite false c1 k1))
  && negb (SFltb (S754_finite false c2 k2) s)
  = SFleb (S754_finite false c1 k1) s && SFleb s (S754_finite false c2 k2).
Proof.
  rewrite SF_self.
  destruct s as [b | b | | b m e].
  - reflexivity.
  - destruct b; reflexivity.
  - reflexivity.
  - destruct b; [reflexivity|].
    unfold SFltb, SFleb.
    rewrite (SF_pos_flip m c1 e k1), (SF_pos_flip m c2 e k2).
    destruct (SF_pos_compare m c1 e k1) as [o1 ->].
    destruct (SF_pos_compare m c2 e k2) as [o2 ->].
    destruct o1, o2; reflexivity.
Qed.

Lemma limit_checks_spec (x : float) :
  negb (PrimFloat.is_nan x)
  && negb (PrimFloat.ltb x 1) && negb (PrimFloat.ltb 100 x)
  = PrimFloat.leb 1 x && PrimFloat.leb x 100.
Proof.
  unfold PrimFloat.is_nan. rewrite negb_involutive.
  rewrite eqb_spec, !ltb_spec, !leb_spec.
  replace (Prim2SF 1) with (S754_finite false 4503599627370496 (-52))
    by (vm_compute; reflexivity).
  replace (Prim2SF 100) with (S754_finite false 7036874417766400 (-46))
    by (vm_compute; reflexivity).
  apply SF_between.
Qed.

(** ** Strings: length in code units *)

(** Indexing a string gives as many code units as its [.length] says. *)
Lemma code_units_length (s : string) :
  length (code_units s) = js_length s.
Proof.
  unfold code_units.
  induction s as [ | c rest IH]; [reflexivity|].
  cbn [sequences js_length].
  destruct (sequences rest) as [pending done]. cbn [snd] in IH.
  destruct (continuation c); cbn [snd]; [exact IH|].
  cbn [flat_map]. rewrite length_app, IH.
  destruct (lead4 c); reflexivity.
Qed.

(** On ASCII text the length is the number of characters. *)
Lemma js_length_ascii (s : string) :
  forallb (fun c => (N_of_ascii c <? 128)%N) (list_ascii_of_string s) = true ->
  js_length s = String.length s.
Proof.
  induction s as [ | c rest IH]; [reflexivity|].
  cbn [list_ascii_of_string forallb js_length String.length].
  intros H. apply andb_true_iff in H. destruct H as [Hc Hrest].
  rewrite (IH Hrest).
  apply N.ltb_lt in Hc.
  unfold continuation, lead4.
  destruct (N.leb_spec 128 (N_of_ascii c)) as [H128 | _]; [lia|].
  destruct (N.leb_spec 240 (N_of_ascii c)) as [H240 | _]; [lia|].
  reflexivity.
Qed.

(** A character of three bytes is one code unit, one of four bytes is
    two. *)
Example lengths_beyond_ascii :
  js_length "❌" = 1 /\ js_length "😀" = 2 /\ js_length "a❌😀é" = 5.
Proof. repeat split. Qed.

(** ** The field schemas *)

Lemma query_schema_spec (v : value) (q : string) :
  query_schema v = Some q <->
  v = VString q /\ 1 <= js_length q <= 1000.
Proof.
  unfold query_schema, Zod.str_max, Zod.str_min, Zod.refine, Zod.string_.
  destruct v as [ | | b | x | s | items | props];
    try (split; [discriminate | intros [H _]; discriminate]).
  destruct (Nat.ltb_spec (js_length s) 1) as [Hlo | Hlo]; simpl.
  - split; [discriminate | intros [H Hlen]; inversion H; subst; lia].
  - destruct (Nat.ltb_spec 1000 (js_length s)) as [Hhi | Hhi]; simpl.
    + split; [discriminate | intros [H Hlen]; inversion H; subst; lia].
    + split.
      * intros H; inversion H; subst. split; [reflexivity | lia].
      * intros [H _]; inversion H; reflexivity.
Qed.

Lemma collection_schema_spec (v : value) (c : option string) :
  collection_schema v = Some c <->
  match c with
  | None => v = VUndefined
  | Some s => v = VString s
  end.
Proof.
  unfold collection_schema, Zod.optional, Zod.string_.
  destruct v as [ | | b | x | s | items | props], c as [c | ]; simpl;
    split; intros H; try discriminate; try reflexivity;
    inversion H; reflexivity.
Qed.

Lemma bounded_number_spec (v : value) (x : float) :
  Zod.num_max 100 (Zod.num_min 1 Zod.number_) v = Some x <->
  v = VNumber x /\ PrimFloat.leb 1 x = true /\ PrimFloat.leb x 100 = true.
Proof.
  unfold Zod.num_max, Zod.num_min, Zod.refine, Zod.number_.
  destruct v as [ | | b | y | s | items | props];
    try (split; [discriminate | intros [H _]; discriminate]).
  assert (E :
    match
      match (if PrimFloat.is_nan y then None else Some y) with
      | Some a => if negb (PrimFloat.ltb a 1) then Some a else None
      | None => None
      end
    with
    | Some a => if negb (PrimFloat.ltb 100 a) then Some a else None
    | None => None
    end
    = if PrimFloat.leb 1 y && PrimFloat.leb y 100 then Some y else None).
  { rewrite <- limit_checks_spec.
    destruct (PrimFloat.is_nan y); [reflexivity|].
    destruct (PrimFloat.ltb y 1) eqn:Hlo; cbn [negb andb]; rewrite ?Hlo;
      cbn [negb andb]; [reflexivity|].
    destruct (PrimFloat.ltb 100 y); reflexivity. }
  rewrite E. clear E.
  destruct (PrimFloat.leb 1 y && PrimFloat.leb y 100) eqn:R.
  - apply andb_true_iff in R. split.
    + intros H; inversion H; subst. split; [reflexivity | exact R].
    + intros [H _]; inversion H; reflexivity.
  - split; [discriminate|].
    intros [H [R1 R2]]; inversion H; subst.
    rewrite R1, R2 in R. discriminate.
Qed.

Lemma limit_schema_spec (v : value) (l : option float) :
  limit_schema v = Some l <->
  match l with
  | None => v = VUndefined
  | Some x =>
      v = VNumber x /\
      PrimFloat.leb 1 x = true /\ PrimFloat.leb x 100 = true
  end.
Proof.
  unfold limit_schema, Zod.optional.
  destruct l as [x | ].
  - rewrite <- bounded_number_spec.
    destruct v; try (destruct (Zod.num_max _ _ _); simpl; split; congruence).
    split; [discriminate|].
    unfold Zod.num_max, Zod.num_min, Zod.refine, Zod.number_. discriminate.
  - destruct v; try (destruct (Zod.num_max _ _ _); simpl; split; congruence).
    split; reflexivity.
Qed.

(** [inputSchema] accepts exactly the objects whose three fields pass
    their schemas, and yields those fields. *)
Lemma inputSchema_spec (v : value) (i : Input.t) :
  inputSchema v = Some i <->
  exists props,
    v = VObject props /\
    (get props "query" = VString (Input.query i) /\
     1 <= js_length (Input.query i) <= 1000) /\
    match Input.collection i with
    | None => get props "collection" = VUndefined
    | Some c => get props "collection" = VString c
    end /\
    match Input.limit i with
    | None => get props "limit" = VUndefined
    | Some x =>
        get props "limit" = VNumber x /\
        PrimFloat.leb 1 x = true /\ PrimFloat.leb x 100 = true
    end.
Proof.
  split.
  - destruct v as [ | | b | x | s | items | props]; try discriminate.
    unfold inputSchema, Zod.field.
    destruct (query_schema (get props "query")) as [q | ] eqn:Hq;
      [ | discriminate].
    destruct (collection_schema (get props "collection")) as [c | ] eqn:Hc;
      [ | discriminate].
    destruct (limit_schema (get props "limit")) as [l | ] eqn:Hl;
      [ | discriminate].
    intros H; inversion H; subst; simpl.
    exists props. split; [reflexivity|].
    split; [apply query_schema_spec; exact Hq|].
    split; [apply collection_schema_spec in Hc; exact Hc|].
    apply limit_schema_spec in Hl; exact Hl.
  - intros [props [-> [Hq [Hc Hl]]]].
    apply query_schema_spec in Hq.
    apply (collection_schema_spec _ (Input.collection i)) in Hc.
    apply (limit_schema_spec _ (Input.limit i)) in Hl.
    unfold inputSchema, Zod.field. rewrite Hq, Hc, Hl.
    destruct i; reflexivity.
Qed.

(** The bounds, at their edges. *)
Example query_of_1000_accepted :
  inputSchema (VObject [("query", VString (repeat_char "a" 1000))])
  = Some (Input.Build (repeat_char "a" 1000) None None).
Proof. vm_compute. reflexivity. Qed.

Example query_of_1001_rejected :
  inputSchema (VObject [("query", VString (repeat_char "a" 1001))]) = None.
Proof. vm_compute. reflexivity. Qed.

Example limits_at_the_edges :
  map (fun x => inputSchema (VObject [("query", VString "q");
                                      ("limit", VNumber x)]))
      [0.5; 1; 100; 100.5; nan; infinity]%float
  = [None;
     Some (Input.Build "q" None (Some 1%float));
     Some (Input.Build "q" None (Some 100%float));
     None; None; None].
Proof. vm_compute. reflexivity. Qed.

(** The bound on the query is in code units, not bytes or characters:
    400 characters of three bytes each pass, 500 characters of two code
    units each pass, 501 of them do not. *)
Example queries_beyond_ascii :
  inputSchema (VObject [("query", VString (repeat_string "❌" 400))])
  = Some (Input.Build (repeat_string "❌" 400) None None) /\
  inputSchema (VObject [("query", VString (repeat_string "😀" 500))])
  = Some (Input.Build (repeat_string "😀" 500) None None) /\
  inputSchema (VObject [("query", VString (repeat_string "😀" 501))]) = None.
Proof. repeat split; vm_compute; reflexivity. Qed.

Example null_is_not_optional :
  inputSchema (VObject [("query", VString "q"); ("collection", VNull)]) = None
  /\ inputSchema (VObject [("query", VString "q"); ("limit", VNull)]) = None
  /\ inputSchema (VString "q") = None.
Proof. repeat split. Qed.

(** ** The log *)

Lemma issued_app (log calls : Log) : issued log (log ++ calls) = calls.
Proof.
  unfold issued. induction log as [ | c log IH]; simpl; [reflexivity | exact IH].
Qed.

Lemma issued_same (log : Log) : issued log log = [].
Proof.
  rewrite <- (app_nil_r log) at 2. apply issued_app.
Qed.

(** ** Truthy strings *)

Lemma truthy_string_Some (s : option string) (x : string) :
  truthy_string s = Some x <-> s = Some x /\ x <> "".
Proof.
  unfold truthy_string, truthy. destruct s as [y | ].
  - destruct (String.eqb_spec y "") as [-> | Hne]; simpl; split.
    + discriminate.
    + intros [H Hx]; inversion H; subst; contradiction.
    + intros H; inversion H; subst; split; [reflexivity | exact Hne].
    + intros [H _]; exact H.
  - split; [discriminate | intros [H _]; discriminate].
Qed.

Lemma truthy_string_None (s : option string) :
  truthy_string s = None <-> s = None \/ s = Some "".
Proof.
  unfold truthy_string, truthy. destruct s as [y | ].
  - destruct (String.eqb_spec y "") as [-> | Hne]; simpl; split.
    + intros _; right; reflexivity.
    + reflexivity.
    + discriminate.
    + intros [H | H]; [discriminate | inversion H; contradiction].
  - split; [intros _; left | ]; reflexivity.
Qed.

(** ** The result object *)

Lemma search_result_with_answer (response : Response.t) :
  truthy (Response.completion response) = true ->
  search_result response =
  VObject [("results", VArray (Response.results response));
           ("answer", Response.completion response)].
Proof.
  intros H. unfold search_result, js_and. rewrite H. reflexivity.
Qed.

Lemma search_result_without_answer (response : Response.t) :
  truthy (Response.completion response) = false ->
  search_result response =
  VObject [("results", VArray (Response.results response))].
Proof.
  intros H. unfold search_result, js_and. rewrite H.
  destruct (Response.completion response) as [ | | b | x | s | items | props];
    try reflexivity; try discriminate.
  simpl in H. apply negb_false_iff in H. apply String.eqb_eq in H.
  subst. reflexivity.
Qed.

Section AdapterFacts.

Variable RemoteFailure : Type.
Variable service : Log -> Call.t -> RemoteFailure + Response.t.
Variable process_env : string -> option string.

(** *** [execute], case by case *)

Lemma execute_unresolved (cfg : Config.t) (input : Input.t) (log : Log) :
  truthy_string
    (or_else (Input.collection input) (Config.defaultCollection cfg)) = None ->
  execute service cfg input log = (Thrown (Error collection_required), log).
Proof.
  intros H. unfold execute. rewrite H. reflexivity.
Qed.

Lemma execute_resolved (cfg : Config.t) (input : Input.t) (log : Log)
  (collectionId : string) :
  truthy_string
    (or_else (Input.collection input) (Config.defaultCollection cfg))
  = Some collectionId ->
  execute service cfg input log =
  (match service log (the_call cfg collectionId input) with
   | inr response => Returned (search_result response)
   | inl e => Thrown (Rejection e)
   end, log ++ [the_call cfg collectionId input])%list.
Proof.
  intros H. unfold execute. rewrite H.
  unfold bind, collections_search, ret, the_call.
  destruct (service log _); reflexivity.
Qed.

(** Every run of [execute] extends the log by at most one call. *)
Lemma execute_calls (cfg : Config.t) (input : Input.t) (log : Log) :
  issued log (snd (execute service cfg input log)) = [] \/
  exists collectionId,
    truthy_string
      (or_else (Input.collection input) (Config.defaultCollection cfg))
    = Some collectionId /\
    issued log (snd (execute service cfg input log))
    = [the_call cfg collectionId input].
Proof.
  destruct (truthy_string
              (or_else (Input.collection input)
                 (Config.defaultCollection cfg))) as [cid | ] eqn:H.
  - right. exists cid. split; [reflexivity|].
    rewrite (execute_resolved _ _ _ _ H). simpl. apply issued_app.
  - left. rewrite (execute_unresolved _ _ _ H). simpl. apply issued_same.
Qed.

(** *** The factory, case by case *)

Lemma airweaveSearch_without_key (options : Options.t) (log : Log) :
  truthy_string
    (or_else (Options.apiKey options) (process_env "AIRWEAVE_API_KEY"))
  = None ->
  airweaveSearch service process_env options log
  = (Thrown (Error apiKey_required), log).
Proof.
  intros H. unfold airweaveSearch. rewrite H. reflexivity.
Qed.

Lemma airweaveSearch_with_key (options : Options.t) (log : Log)
  (key : string) :
  truthy_string
    (or_else (Options.apiKey options) (process_env "AIRWEAVE_API_KEY"))
  = Some key ->
  airweaveSearch service process_env options log
  = (Returned (Tool.Build tool_description inputSchema
                 (execute service (configure key options))), log).
Proof.
  intros H. unfold airweaveSearch. rewrite H. reflexivity.
Qed.

Lemma airweaveSearch_returned (options : Options.t) (log log' : Log)
  (tool : Tool.t RemoteFailure) :
  airweaveSearch service process_env options log = (Returned tool, log') ->
  exists key,
    truthy_string
      (or_else (Options.apiKey options) (process_env "AIRWEAVE_API_KEY"))
    = Some key /\
    tool = Tool.Build tool_description inputSchema
             (execute service (configure key options)) /\
    log' = log.
Proof.
  intros H.
  destruct (truthy_string
              (or_else (Options.apiKey options)
                 (process_env "AIRWEAVE_API_KEY"))) as [key | ] eqn:K.
  - rewrite (airweaveSearch_with_key _ _ _ K) in H.
    inversion H; subst. exists key. repeat split; reflexivity.
  - rewrite (airweaveSearch_without_key _ _ K) in H. discriminate.
Qed.

End AdapterFacts.

(** ** The tool, from construction to result *)

Section Claims.

Variable RemoteFailure : Type.
Variable service : Log -> Call.t -> RemoteFailure + Response.t.
Variable process_env : string -> option string.

(** C1: whenever the tool returned by [airweaveSearch] returns, exactly
    one remote call was made and it succeeded; the output is an object
    whose [results] is the response's results sequence as it came; the
    object has an [answer] key exactly when the response's completion is
    truthy, that is, for a string, when it is not empty, and never when
    the completion is [undefined] or [null]; when the key is there it
    holds the completion; and the object has no other key. *)
Theorem C1_answer_iff_completion
  (options : Options.t) (log0 log0' : Log) (tool : Tool.t RemoteFailure)
  (input : Input.t) (log log' : Log) (out : value) :
  airweaveSearch service process_env options log0 = (Returned tool, log0') ->
  Tool.execute tool input log = (Returned out, log') ->
  exists call response props,
    log' = log ++ [call] /\
    service log call = inr response /\
    out = VObject props /\
    get props "results" = VArray (Response.results response) /\
    has_key props "answer" = truthy (Response.completion response) /\
    (has_key props "answer" = true ->
     get props "answer" = Response.completion response) /\
    (forall s, Response.completion response = VString s ->
               (has_key props "answer" = true <-> s <> "")) /\
    (Response.completion response = VUndefined \/
     Response.completion response = VNull ->
     has_key props "answer" = false) /\
    (forall key, has_key props key = true ->
                 key = "results" \/ key = "answer").
Proof.
  intros Hfactory Hrun.
  destruct (airweaveSearch_returned _ _ _ _ _ _ _ Hfactory)
    as [key [_ [-> _]]].
  cbn [Tool.execute] in Hrun.
  destruct (truthy_string
              (or_else (Input.collection input)
                 (Config.defaultCollection (configure key options))))
    as [cid | ] eqn:Hcid.
  2:{ rewrite (execute_unresolved _ _ _ _ _ Hcid) in Hrun. discriminate. }
  rewrite (execute_resolved _ _ _ _ _ _ Hcid) in Hrun.
  destruct (service log (the_call (configure key options) cid input))
    as [e | response] eqn:Hservice; [discriminate|].
  inversion Hrun; subst; clear Hrun.
  exists (the_call (configure key options) cid input), response.
  destruct (truthy (Response.completion response)) eqn:Htruthy.
  - rewrite (search_result_with_answer _ Htruthy). eexists.
    repeat split; try reflexivity; try assumption.
    + intros _ Hs. subst s. rewrite H in Htruthy. discriminate.
    + intros [H | H]; rewrite H in Htruthy; discriminate.
    + intros k Hk. cbn [has_key] in Hk.
      apply orb_true_iff in Hk. destruct Hk as [Hk | Hk].
      * left. symmetry. apply String.eqb_eq. exact Hk.
      * rewrite orb_false_r in Hk.
        right. symmetry. apply String.eqb_eq. exact Hk.
  - rewrite (search_result_without_answer _ Htruthy). eexists.
    repeat split; try reflexivity; try assumption; try discriminate.
    + intros Hs. rewrite H in Htruthy. simpl in Htruthy.
      apply negb_false_iff, String.eqb_eq in Htruthy. contradiction.
    + intros k Hk. cbn [has_key] in Hk. rewrite orb_false_r in Hk.
      left. symmetry. apply String.eqb_eq. exact Hk.
Qed.

(** C2: the flags of every request that the tool issues are the three
    flags the factory was configured with (with their defaults when
    omitted), whatever the per-call input is, be it the typed input of
    [execute] or any raw value sent through the schema; and a request is
    issued as soon as a collection resolves. *)
Theorem C2_flags_fixed_at_construction
  (options : Options.t) (log0 log0' : Log) (tool : Tool.t RemoteFailure)
  (input : Input.t) (raw : value) (log : Log) :
  airweaveSearch service process_env options log0 = (Returned tool, log0') ->
  let configured (call : Call.t) :=
    Request.generate_answer (Call.request call)
    = or_default (Options.generateAnswer options) false /\
    Request.expand_query (Call.request call)
    = or_default (Options.expandQuery options) true /\
    Request.rerank (Call.request call)
    = or_default (Options.rerank options) true in
  (forall call,
      In call (issued log (snd (Tool.execute tool input log))) ->
      configured call) /\
  (forall call,
      In call (issued log (snd (invoke tool raw log))) -> configured call) /\
  (forall collectionId,
      truthy_string
        (or_else (Input.collection input)
           (Options.defaultCollection options)) = Some collectionId ->
      exists call,
        issued log (snd (Tool.execute tool input log)) = [call]).
Proof.
  intros Hfactory configured.
  destruct (airweaveSearch_returned _ _ _ _ _ _ _ Hfactory)
    as [key [_ [-> _]]].
  unfold invoke. cbn [Tool.execute Tool.inputSchema].
  assert (Hall : forall i call,
             In call (issued log
                        (snd (execute service (configure key options) i log))) ->
             configured call).
  { intros i call Hin.
    destruct (execute_calls _ service (configure key options) i log)
      as [Hnone | [cid [_ Hone]]].
    - rewrite Hnone in Hin. destruct Hin.
    - rewrite Hone in Hin. destruct Hin as [<- | []].
      repeat split; reflexivity. }
  split; [apply Hall|]. split.
  - intros call Hin. destruct (inputSchema raw) as [parsed | ].
    + exact (Hall parsed call Hin).
    + cbn [throw snd] in Hin. rewrite issued_same in Hin. destruct Hin.
  - intros cid Hcid.
    rewrite (execute_resolved _ _ (configure key options) _ _ _ Hcid).
    cbn [snd]. rewrite issued_app. eexists; reflexivity.
Qed.

(** C3: with no per-call collection and no configured default, the tool
    throws the [Error] that asks for a collection, which is not a
    rejection of a remote call, and the log of remote calls is left as it
    was. *)
Theorem C3_collection_required
  (options : Options.t) (log0 log0' : Log) (tool : Tool.t RemoteFailure)
  (input : Input.t) (log : Log) :
  airweaveSearch service process_env options log0 = (Returned tool, log0') ->
  Input.collection input = None ->
  Options.defaultCollection options = None ->
  Tool.execute tool input log = (Thrown (Error collection_required), log) /\
  (forall e, fst (Tool.execute tool input log) <> Thrown (Rejection e)) /\
  issued log (snd (Tool.execute tool input log)) = [].
Proof.
  intros Hfactory Hinput Hdefault.
  destruct (airweaveSearch_returned _ _ _ _ _ _ _ Hfactory)
    as [key [_ [-> _]]].
  cbn [Tool.execute].
  assert (Hrun : execute service (configure key options) input log
                 = (Thrown (Error collection_required), log)).
  { apply execute_unresolved. simpl. rewrite Hinput, Hdefault. reflexivity. }
  rewrite Hrun. simpl. split; [reflexivity|].
  split; [intros e; discriminate | apply issued_same].
Qed.

(** C4: when the explicit credential is absent or empty and the
    environment holds no non-empty value, the factory throws the [Error]
    that tells how to supply the key, and the log of remote calls is
    left as it was; an explicit non-empty credential is the one the
    client is built with, whatever the environment holds. *)
Theorem C4_credential_required
  (env : string -> option string) (options : Options.t) (log : Log) :
  (truthy_string (Options.apiKey options) = None ->
   truthy_string (env "AIRWEAVE_API_KEY") = None ->
   airweaveSearch service env options log
   = (Thrown (Error apiKey_required), log)) /\
  (forall key,
      Options.apiKey options = Some key -> key <> "" ->
      airweaveSearch service env options log
      = (Returned (Tool.Build tool_description inputSchema
                     (execute service (configure key options))), log) /\
      Client.apiKey (Config.client (configure key options)) = key).
Proof.
  split.
  - intros Hexplicit Henv. apply airweaveSearch_without_key.
    apply truthy_string_None in Hexplicit.
    destruct Hexplicit as [-> | ->]; [exact Henv | reflexivity].
  - intros key Hexplicit Hkey. split; [ | reflexivity].
    apply airweaveSearch_with_key. rewrite Hexplicit. cbn [or_else].
    apply truthy_string_Some. split; [reflexivity | exact Hkey].
Qed.

(** C5: with a configured default collection and a per-call override,
    any call the execution issues goes to the override, and one is issued
    when the override is not empty; an execution of the same tool that
    follows, without an override, goes to the configured default. *)
Theorem C5_override_for_one_call
  (options : Options.t) (log0 log0' : Log) (tool : Tool.t RemoteFailure)
  (c d q1 q2 : string) (l1 l2 : option float) (log : Log) :
  airweaveSearch service process_env options log0 = (Returned tool, log0') ->
  Options.defaultCollection options = Some d ->
  let log1 := snd (Tool.execute tool (Input.Build q1 (Some c) l1) log) in
  let log2 := snd (Tool.execute tool (Input.Build q2 None l2) log1) in
  (forall call, In call (issued log log1) -> Call.collectionId call = c) /\
  (c <> "" -> map Call.collectionId (issued log log1) = [c]) /\
  (d <> "" -> map Call.collectionId (issued log1 log2) = [d]).
Proof.
  intros Hfactory Hdefault.
  destruct (airweaveSearch_returned _ _ _ _ _ _ _ Hfactory)
    as [key [_ [-> _]]].
  intros log1 log2. cbn [Tool.execute] in log1, log2.
  assert (Hfirst : c <> "" -> issued log log1
                   = [the_call (configure key options) c
                        (Input.Build q1 (Some c) l1)]).
  { intros Hc. unfold log1.
    rewrite (execute_resolved _ _ (configure key options) _ _ c).
    - simpl. apply issued_app.
    - cbn [or_else Input.collection].
      apply truthy_string_Some. split; [reflexivity | exact Hc]. }
  split; [ | split].
  - intros call Hin.
    destruct (String.eqb_spec c "") as [Hc | Hc].
    + unfold log1 in Hin.
      rewrite (execute_unresolved _ _ (configure key options)) in Hin.
      * simpl in Hin. rewrite issued_same in Hin. destruct Hin.
      * simpl. subst c. reflexivity.
    + rewrite (Hfirst Hc) in Hin. destruct Hin as [<- | []]. reflexivity.
  - intros Hc. rewrite (Hfirst Hc). reflexivity.
  - intros Hd. unfold log2.
    rewrite (execute_resolved _ _ (configure key options) _ _ d).
    + simpl. rewrite issued_app. reflexivity.
    + cbn [or_else Input.collection Config.defaultCollection configure].
      rewrite Hdefault.
      apply truthy_string_Some. split; [reflexivity | exact Hd].
Qed.


(** C7: the factory built with [{defaultCollection: "kb1",
    defaultLimit: 10}], and just as well with [{defaultCollection:
    "kb1"}], the key coming from the environment, executed on
    [{query: "budget"}], sends collection ["kb1"] and the request
    [{query: "budget", limit: 10, generate_answer: false, expand_query:
    true, rerank: true}]; when the service answers with the one document
    and no completion the output is [{results: [doc]}], without an
    [answer] key. *)
Theorem C7_end_to_end
  (key : string) (options : Options.t) (log : Log) :
  options = kb1_options \/ options = kb1_only ->
  process_env "AIRWEAVE_API_KEY" = Some key ->
  key <> "" ->
  service log
    (Call.Build (Client.Build key None "vercel-ai-sdk" "1.0.0") "kb1"
       (Request.Build "budget" 10%float false true true))
  = inr doc_response ->
  exists tool call,
    airweaveSearch service process_env options log = (Returned tool, log) /\
    Tool.execute tool budget_input log
    = (Returned (VObject [("results", VArray [doc])]), log ++ [call]) /\
    Call.collectionId call = "kb1" /\
    Call.request call = Request.Build "budget" 10%float false true true /\
    has_key [("results", VArray [doc])] "answer" = false.
Proof.
  intros Hoptions Henv Hkey Hservice.
  assert (Hresolved :
    truthy_string
      (or_else (Options.apiKey options) (process_env "AIRWEAVE_API_KEY"))
    = Some key).
  { destruct Hoptions as [-> | ->]; cbn [or_else Options.apiKey kb1_options
      kb1_only]; rewrite Henv; apply truthy_string_Some; split;
      [reflexivity | exact Hkey | reflexivity | exact Hkey]. }
  eexists. eexists.
  split; [apply (airweaveSearch_with_key _ _ _ _ _ _ Hresolved)|].
  cbn [Tool.execute].
  rewrite (execute_resolved _ service (configure key options)
             budget_input log "kb1").
  - assert (Hcall : the_call (configure key options) "kb1" budget_input
                    = Call.Build
                        (Client.Build key None "vercel-ai-sdk" "1.0.0")
                        "kb1"
                        (Request.Build "budget" 10%float false true true)).
    { destruct Hoptions as [-> | ->]; reflexivity. }
    rewrite Hcall, Hservice.
    repeat split; reflexivity.
  - destruct Hoptions as [-> | ->]; reflexivity.
Qed.

(** C8: an execution issues at most one remote call; when that call is
    rejected the execution throws what the call was rejected with, as it
    is, with nothing after the one call; and an execution only throws a
    rejection that its one call produced. *)
Theorem C8_remote_failure_propagates
  (options : Options.t) (log0 log0' : Log) (tool : Tool.t RemoteFailure)
  (input : Input.t) (log : Log) :
  airweaveSearch service process_env options log0 = (Returned tool, log0') ->
  length (issued log (snd (Tool.execute tool input log))) <= 1 /\
  (forall call e,
      In call (issued log (snd (Tool.execute tool input log))) ->
      service log call = inl e ->
      Tool.execute tool input log
      = (Thrown (Rejection e), log ++ [call])) /\
  (forall e,
      fst (Tool.execute tool input log) = Thrown (Rejection e) ->
      exists call,
        snd (Tool.execute tool input log) = log ++ [call] /\
        service log call = inl e).
Proof.
  intros Hfactory.
  destruct (airweaveSearch_returned _ _ _ _ _ _ _ Hfactory)
    as [key [_ [-> _]]].
  cbn [Tool.execute].
  destruct (truthy_string
              (or_else (Input.collection input)
                 (Config.defaultCollection (configure key options))))
    as [cid | ] eqn:Hcid.
  - rewrite (execute_resolved _ _ _ _ _ _ Hcid).
    cbn [fst snd]. rewrite issued_app.
    split; [simpl; lia|]. split.
    + intros call e [<- | []] Hfail. rewrite Hfail. reflexivity.
    + intros e Hthrown. eexists. split; [reflexivity|].
      destruct (service log _) as [e' | response];
        inversion Hthrown; reflexivity.
  - rewrite (execute_unresolved _ _ _ _ _ Hcid).
    cbn [fst snd]. rewrite issued_same.
    split; [simpl; lia|]. split.
    + intros call e [].
    + intros e Hthrown. discriminate.
Qed.

(** C9: a per-call collection that is the empty string makes the tool
    throw the [Error] that asks for a collection and issue no call,
    whatever default collection is configured. *)
Theorem C9_empty_collection_rejected
  (options : Options.t) (log0 log0' : Log) (tool : Tool.t RemoteFailure)
  (q : string) (l : option float) (log : Log) :
  airweaveSearch service process_env options log0 = (Returned tool, log0') ->
  Tool.execute tool (Input.Build q (Some "") l) log
  = (Thrown (Error collection_required), log) /\
  issued log (snd (Tool.execute tool (Input.Build q (Some "") l) log)) = [].
Proof.
  intros Hfactory.
  destruct (airweaveSearch_returned _ _ _ _ _ _ _ Hfactory)
    as [key [_ [-> _]]].
  cbn [Tool.execute].
  rewrite (execute_unresolved _ service (configure key options)
             (Input.Build q (Some "") l) log eq_refl).
  split; [reflexivity | apply issued_same].
Qed.

(** C10: whatever number is configured as [defaultLimit], the factory
    builds the tool as soon as a key resolves, and an execution without
    a per-call limit whose collection resolves sends one request whose
    limit is that number. *)
Theorem C10_defaultLimit_not_validated
  (options : Options.t) (d : float) (key collectionId : string)
  (input : Input.t) (log : Log) :
  Options.defaultLimit options = Some d ->
  truthy_string
    (or_else (Options.apiKey options) (process_env "AIRWEAVE_API_KEY"))
  = Some key ->
  Input.limit input = None ->
  truthy_string
    (or_else (Input.collection input) (Options.defaultCollection options))
  = Some collectionId ->
  exists tool call,
    airweaveSearch service process_env options log = (Returned tool, log) /\
    issued log (snd (Tool.execute tool input log)) = [call] /\
    Call.collectionId call = collectionId /\
    Request.limit (Call.request call) = d.
Proof.
  intros Hdefault Hkey Hlimit Hcollection.
  eexists. eexists.
  split; [apply (airweaveSearch_with_key _ _ _ _ _ _ Hkey)|].
  cbn [Tool.execute].
  rewrite (execute_resolved _ service (configure key options) input log
             collectionId Hcollection).
  cbn [snd]. rewrite issued_app.
  split; [reflexivity|]. split; [reflexivity|].
  cbn [the_call Call.request search_request Request.limit configure
       Config.defaultLimit].
  rewrite Hlimit, Hdefault. reflexivity.
Qed.

End Claims.

(** ** Concrete runs against the stubs *)

Lemma C1_answer_iff_completion_witness :
  exists props,
    VObject [("results", VArray [doc]); ("answer", VString "X")]
    = VObject props /\
    has_key props "answer" = true /\
    get props "answer" = VString "X".
Proof.
  destruct (C1_answer_iff_completion string service_answer env_with_key
              kb1_options [] []
              (Tool.Build tool_description inputSchema
                 (execute service_answer (configure "sk-test" kb1_options)))
              budget_input []
              [the_call (configure "sk-test" kb1_options) "kb1" budget_input]
              (VObject [("results", VArray [doc]); ("answer", VString "X")])
              eq_refl eq_refl)
    as (call & response & props & _ & Hservice & Hout & _ & Hkey & Hget & _).
  inversion Hservice; subst response.
  exists props. split; [exact Hout|].
  split; [exact Hkey | exact (Hget Hkey)].
Defined.

Lemma C2_flags_fixed_at_construction_witness :
  let options :=
    Options.Build None None (Some "kb1") None (Some true) (Some false) None in
  let tool :=
    Tool.Build tool_description inputSchema
      (execute service_doc (configure "sk-test" options)) in
  let raw :=
    VObject [("query", VString "q"); ("generate_answer", VBool false);
             ("expand_query", VBool true); ("rerank", VBool false)] in
  (exists call,
      issued [] (snd (Tool.execute tool (Input.Build "q" (Some "kb2") None) []))
      = [call] /\
      Request.generate_answer (Call.request call) = true /\
      Request.expand_query (Call.request call) = false /\
      Request.rerank (Call.request call) = true) /\
  (exists call,
      issued [] (snd (invoke tool raw [])) = [call] /\
      Request.generate_answer (Call.request call) = true /\
      Request.expand_query (Call.request call) = false /\
      Request.rerank (Call.request call) = true).
Proof.
  intros options tool raw.
  pose proof (C2_flags_fixed_at_construction string service_doc env_with_key
                options [] [] tool (Input.Build "q" (Some "kb2") None) raw []
                eq_refl) as H.
  cbv zeta in H. destruct H as (Htyped & Hraw & Hissued).
  split.
  - destruct (Hissued "kb2" eq_refl) as [call Hcall].
    exists call. split; [exact Hcall|].
    apply Htyped. rewrite Hcall. left. reflexivity.
  - eexists. split; [reflexivity|].
    apply Hraw. left. reflexivity.
Defined.

Lemma C3_collection_required_witness :
  Tool.execute
    (Tool.Build tool_description inputSchema
       (execute service_doc (configure "sk-test" Options.empty)))
    budget_input []
  = (Thrown (Error collection_required), []).
Proof.
  exact (proj1 (C3_collection_required string service_doc env_with_key
                  Options.empty [] [] _ budget_input []
                  eq_refl eq_refl eq_refl)).
Defined.

Lemma C4_credential_required_witness :
  airweaveSearch service_doc env_empty Options.empty []
  = (Thrown (Error apiKey_required), []) /\
  let options :=
    Options.Build (Some "sk-explicit") None None None None None None in
  airweaveSearch service_doc env_with_key options []
  = (Returned (Tool.Build tool_description inputSchema
                 (execute service_doc (configure "sk-explicit" options))), []).
Proof.
  split.
  - exact (proj1 (C4_credential_required string service_doc env_empty
                    Options.empty [])
             eq_refl eq_refl).
  - intros options.
    refine (proj1 (proj2 (C4_credential_required string service_doc
                            env_with_key options [])
                     "sk-explicit" eq_refl _)).
    discriminate.
Defined.

Lemma C5_override_for_one_call_witness :
  let tool :=
    Tool.Build tool_description inputSchema
      (execute service_doc (configure "sk-test" kb1_options)) in
  let log1 :=
    snd (Tool.execute tool (Input.Build "budget" (Some "kb2") None) []) in
  let log2 :=
    snd (Tool.execute tool (Input.Build "budget" None None) log1) in
  map Call.collectionId (issued [] log1) = ["kb2"] /\
  map Call.collectionId (issued log1 log2) = ["kb1"].
Proof.
  intros tool log1 log2.
  pose proof (C5_override_for_one_call string service_doc env_with_key
                kb1_options [] [] tool "kb2" "kb1" "budget" "budget"
                None None [] eq_refl eq_refl) as H.
  cbv zeta in H. destruct H as (_ & Hfirst & Hsecond).
  split; [apply Hfirst | apply Hsecond]; discriminate.
Defined.



Lemma C7_end_to_end_witness :
  exists tool call,
    airweaveSearch service_doc env_with_key kb1_options []
    = (Returned tool, []) /\
    Tool.execute tool budget_input []
    = (Returned (VObject [("results", VArray [doc])]), [] ++ [call]) /\
    Call.collectionId call = "kb1" /\
    Call.request call = Request.Build "budget" 10%float false true true /\
    has_key [("results", VArray [doc])] "answer" = false.
Proof.
  refine (C7_end_to_end string service_doc env_with_key "sk-test"
            kb1_options [] (or_introl eq_refl) eq_refl _ eq_refl).
  discriminate.
Defined.

Lemma C8_remote_failure_propagates_witness :
  let tool :=
    Tool.Build tool_description inputSchema
      (execute service_down (configure "sk-test" kb1_options)) in
  Tool.execute tool budget_input []
  = (Thrown (Rejection "503 Service Unavailable"),
     [] ++ [the_call (configure "sk-test" kb1_options) "kb1" budget_input]).
Proof.
  intros tool.
  destruct (C8_remote_failure_propagates string service_down env_with_key
              kb1_options [] [] tool budget_input [] eq_refl)
    as (_ & Hfail & _).
  apply Hfail; [left | ]; reflexivity.
Defined.

Lemma C9_empty_collection_rejected_witness :
  Tool.execute
    (Tool.Build tool_description inputSchema
       (execute service_doc (configure "sk-test" kb1_options)))
    (Input.Build "budget" (Some "") None) []
  = (Thrown (Error collection_required), []).
Proof.
  exact (proj1 (C9_empty_collection_rejected string service_doc env_with_key
                  kb1_options [] [] _ "budget" None [] eq_refl)).
Defined.

Lemma C10_defaultLimit_not_validated_witness :
  let options :=
    Options.Build None None (Some "kb1") (Some 1000%float) None None None in
  exists tool call,
    airweaveSearch service_doc env_with_key options [] = (Returned tool, []) /\
    issued [] (snd (Tool.execute tool budget_input [])) = [call] /\
    Call.collectionId call = "kb1" /\
    Request.limit (Call.request call) = 1000%float.
Proof.
  intros options.
  exact (C10_defaultLimit_not_validated string service_doc env_with_key
           options 1000%float "sk-test" "kb1" budget_input []
           eq_refl eq_refl eq_refl eq_refl).
Defined.

(** ** Further properties of the factory, the tool and its callers *)

Lemma truthy_string_idem (s : option string) :
  truthy_string (truthy_string s) = truthy_string s.
Proof.
  destruct s as [x | ]; [ | reflexivity].
  unfold truthy_string.
  destruct (truthy (VString x)) eqn:H; [rewrite H | ]; reflexivity.
Qed.

Lemma whole_limits_in_range :
  forallb (fun n => PrimFloat.leb 1 (whole n) && PrimFloat.leb (whole n) 100
                    && isInteger (whole n)) (seq 1 100) = true.
Proof. vm_compute. reflexivity. Qed.

Section Extras.

Variable RemoteFailure : Type.
Variable service : Log -> Call.t -> RemoteFailure + Response.t.
Variable process_env : string -> option string.

(** The log after a sequence of executions of a tool built on [cfg]. *)
Lemma execute_each_log (description : string) (schema : Zod.schema Input.t)
  (cfg : Config.t) (inputs : list Input.t) (log : Log) :
  let tool := Tool.Build description schema (execute service cfg) in
  length (fst (execute_each tool inputs log)) = length inputs /\
  snd (execute_each tool inputs log)
  = log ++ flat_map
             (fun input =>
                match truthy_string
                        (or_else (Input.collection input)
                           (Config.defaultCollection cfg)) with
                | Some cid => [the_call cfg cid input]
                | None => []
                end) inputs.
Proof.
  intros tool. revert log.
  induction inputs as [ | input rest IH]; intros log.
  - simpl. rewrite app_nil_r. split; reflexivity.
  - cbn [execute_each flat_map length].
    unfold tool at 1 3. cbn [Tool.execute]. fold tool.
    destruct (truthy_string
                (or_else (Input.collection input)
                   (Config.defaultCollection cfg))) as [cid | ] eqn:Hcid.
    + rewrite (execute_resolved _ service cfg input log cid Hcid).
      destruct (IH (log ++ [the_call cfg cid input])) as [Hlen Hlog].
      destruct (execute_each tool rest (log ++ [the_call cfg cid input]))
        as [rs log''].
      cbn [fst snd] in *. rewrite Hlog, <- app_assoc.
      split; [simpl; rewrite Hlen | ]; reflexivity.
    + rewrite (execute_unresolved _ service cfg input log Hcid).
      destruct (IH log) as [Hlen Hlog].
      destruct (execute_each tool rest log) as [rs log''].
      cbn [fst snd] in *. rewrite Hlog.
      split; [simpl; rewrite Hlen | ]; reflexivity.
Qed.

(** X1: the factory never touches the log of remote calls; it returns a
    tool exactly when the explicit key, or else the environment's, is a
    non-empty string; and the only thing it throws is the [Error] that
    asks for the key. *)
Theorem X1_factory_outcome (options : Options.t) (log : Log) :
  snd (airweaveSearch service process_env options log) = log /\
  ((exists tool,
       fst (airweaveSearch service process_env options log) = Returned tool)
   <->
   (exists key,
       or_else (Options.apiKey options) (process_env "AIRWEAVE_API_KEY")
       = Some key /\ key <> "")) /\
  (forall t,
      fst (airweaveSearch service process_env options log) = Thrown t ->
      t = Error apiKey_required).
Proof.
  destruct (truthy_string
              (or_else (Options.apiKey options)
                 (process_env "AIRWEAVE_API_KEY"))) as [key | ] eqn:K.
  - rewrite (airweaveSearch_with_key _ service process_env _ log _ K).
    cbn [fst snd]. split; [reflexivity|]. split.
    + split.
      * intros _. exists key. apply truthy_string_Some. exact K.
      * intros _. eexists. reflexivity.
    + intros t H. discriminate.
  - rewrite (airweaveSearch_without_key _ service process_env _ log K).
    cbn [fst snd]. split; [reflexivity|]. split.
    + split.
      * intros [tool H]. discriminate.
      * intros [key H]. apply truthy_string_Some in H.
        rewrite H in K. discriminate.
    + intros t H. inversion H. reflexivity.
Qed.

(** X2: without an explicit key the factory takes the environment's
    non-empty [AIRWEAVE_API_KEY], and every call the tool issues is
    made with that key. *)
Theorem X2_environment_key_used
  (options : Options.t) (key : string) (log0 : Log) :
  Options.apiKey options = None ->
  process_env "AIRWEAVE_API_KEY" = Some key ->
  key <> "" ->
  exists tool,
    airweaveSearch service process_env options log0 = (Returned tool, log0) /\
    forall input log call,
      In call (issued log (snd (Tool.execute tool input log))) ->
      Client.apiKey (Call.client call) = key.
Proof.
  intros Hexplicit Henv Hkey.
  eexists. split.
  - apply airweaveSearch_with_key. rewrite Hexplicit. cbn [or_else].
    rewrite Henv. apply truthy_string_Some. split; [reflexivity | exact Hkey].
  - intros input log call Hin. cbn [Tool.execute] in Hin.
    destruct (execute_calls _ service (configure key options) input log)
      as [Hnone | [cid [_ Hone]]].
    + rewrite Hnone in Hin. destruct Hin.
    + rewrite Hone in Hin. destruct Hin as [<- | []]. reflexivity.
Qed.

(** X3: an explicit key that is the empty string does not fall back to
    the environment: the factory throws the [Error] that asks for the key
    whatever the environment holds, and issues no call. *)
Theorem X3_empty_explicit_key_rejected
  (env : string -> option string) (options : Options.t) (log : Log) :
  Options.apiKey options = Some "" ->
  airweaveSearch service env options log
  = (Thrown (Error apiKey_required), log).
Proof.
  intros Hexplicit. apply airweaveSearch_without_key.
  rewrite Hexplicit. reflexivity.
Qed.

(** X4: every call a tool issues goes through the client built at
    construction: the resolved key, the configured [baseUrl] when it is a
    non-empty string and none otherwise (an empty [baseUrl] is dropped),
    and the framework name and version of this package. *)
Theorem X4_calls_use_the_constructed_client
  (options : Options.t) (log0 log0' : Log) (tool : Tool.t RemoteFailure)
  (input : Input.t) (log : Log) (call : Call.t) :
  airweaveSearch service process_env options log0 = (Returned tool, log0') ->
  In call (issued log (snd (Tool.execute tool input log))) ->
  truthy_string
    (or_else (Options.apiKey options) (process_env "AIRWEAVE_API_KEY"))
  = Some (Client.apiKey (Call.client call)) /\
  Client.baseUrl (Call.client call) = truthy_string (Options.baseUrl options) /\
  (Options.baseUrl options = Some "" ->
   Client.baseUrl (Call.client call) = None) /\
  Client.frameworkName (Call.client call) = "vercel-ai-sdk" /\
  Client.frameworkVersion (Call.client call) = "1.0.0".
Proof.
  intros Hfactory Hin.
  destruct (airweaveSearch_returned _ _ _ _ _ _ _ Hfactory)
    as [key [Hkey [-> _]]].
  cbn [Tool.execute] in Hin.
  destruct (execute_calls _ service (configure key options) input log)
    as [Hnone | [cid [_ Hone]]].
  - rewrite Hnone in Hin. destruct Hin.
  - rewrite Hone in Hin. destruct Hin as [<- | []].
    cbn [the_call Call.client configure Config.client Client.apiKey
         Client.baseUrl Client.frameworkName Client.frameworkVersion].
    split; [exact Hkey|]. split; [reflexivity|].
    split; [intros ->; reflexivity|]. split; reflexivity.
Qed.

(** X5: the limit of every request is the per-call limit when the input
    has one, else the configured [defaultLimit], else 10. *)
Theorem X5_effective_limit
  (options : Options.t) (log0 log0' : Log) (tool : Tool.t RemoteFailure)
  (input : Input.t) (log : Log) (call : Call.t) :
  airweaveSearch service process_env options log0 = (Returned tool, log0') ->
  In call (issued log (snd (Tool.execute tool input log))) ->
  Request.limit (Call.request call)
  = match Input.limit input, Options.defaultLimit options with
    | Some x, _ => x
    | None, Some d => d
    | None, None => 10%float
    end.
Proof.
  intros Hfactory Hin.
  destruct (airweaveSearch_returned _ _ _ _ _ _ _ Hfactory)
    as [key [_ [-> _]]].
  cbn [Tool.execute] in Hin.
  destruct (execute_calls _ service (configure key options) input log)
    as [Hnone | [cid [_ Hone]]].
  - rewrite Hnone in Hin. destruct Hin.
  - rewrite Hone in Hin. destruct Hin as [<- | []].
    cbn [the_call Call.request search_request Request.limit configure
         Config.defaultLimit].
    destruct (Input.limit input), (Options.defaultLimit options); reflexivity.
Qed.

(** X6: [execute] itself validates nothing but the collection: called
    directly with any query, empty or oversized, and any limit, it issues
    one request as soon as the collection resolves, to that non-empty
    collection and with the query as it was given. *)
Theorem X6_execute_does_not_validate
  (options : Options.t) (log0 log0' : Log) (tool : Tool.t RemoteFailure)
  (q : string) (c : option string) (l : option float)
  (collectionId : string) (log : Log) :
  airweaveSearch service process_env options log0 = (Returned tool, log0') ->
  truthy_string (or_else c (Options.defaultCollection options))
  = Some collectionId ->
  exists call,
    issued log (snd (Tool.execute tool (Input.Build q c l) log)) = [call] /\
    Call.collectionId call = collectionId /\
    collectionId <> "" /\
    Request.query (Call.request call) = q.
Proof.
  intros Hfactory Hcid.
  destruct (airweaveSearch_returned _ _ _ _ _ _ _ Hfactory)
    as [key [_ [-> _]]].
  cbn [Tool.execute].
  rewrite (execute_resolved _ service (configure key options)
             (Input.Build q c l) log collectionId Hcid).
  cbn [snd]. rewrite issued_app. eexists. split; [reflexivity|].
  split; [reflexivity|]. split; [ | reflexivity].
  apply truthy_string_Some in Hcid. apply Hcid.
Qed.

(** X7: an execution ends in exactly one of three ways: the collection
    [Error] with no call when no collection resolves; otherwise one call,
    and then either the rejection of that call, or the result object built
    from its response. *)
Theorem X7_execute_outcomes
  (options : Options.t) (log0 log0' : Log) (tool : Tool.t RemoteFailure)
  (input : Input.t) (log : Log) :
  airweaveSearch service process_env options log0 = (Returned tool, log0') ->
  (truthy_string
     (or_else (Input.collection input) (Options.defaultCollection options))
   = None /\
   Tool.execute tool input log = (Thrown (Error collection_required), log)) \/
  (exists collectionId call,
      truthy_string
        (or_else (Input.collection input) (Options.defaultCollection options))
      = Some collectionId /\
      Call.collectionId call = collectionId /\
      snd (Tool.execute tool input log) = log ++ [call] /\
      ((exists e,
           service log call = inl e /\
           fst (Tool.execute tool input log) = Thrown (Rejection e)) \/
       (exists response,
           service log call = inr response /\
           fst (Tool.execute tool input log)
           = Returned (search_result response)))).
Proof.
  intros Hfactory.
  destruct (airweaveSearch_returned _ _ _ _ _ _ _ Hfactory)
    as [key [_ [-> _]]].
  cbn [Tool.execute].
  destruct (truthy_string
              (or_else (Input.collection input)
                 (Options.defaultCollection options))) as [cid | ] eqn:Hcid.
  - right. exists cid, (the_call (configure key options) cid input).
    rewrite (execute_resolved _ service (configure key options) input log
               cid Hcid).
    split; [reflexivity|]. split; [reflexivity|]. split; [reflexivity|].
    cbn [fst].
    destruct (service log (the_call (configure key options) cid input))
      as [e | response].
    + left. exists e. split; reflexivity.
    + right. exists response. split; reflexivity.
  - left. split; [reflexivity|].
    apply execute_unresolved. exact Hcid.
Qed.

(** X8: on the framework's path every request that goes out was
    validated: its query has [.length] 1 to 1000, its collection is not
    empty, and its limit is either a per-call number between 1 and 100 or
    the limit the tool falls back on. *)
Theorem X8_validated_requests
  (options : Options.t) (log0 log0' : Log) (tool : Tool.t RemoteFailure)
  (raw : value) (log : Log) (call : Call.t) :
  airweaveSearch service process_env options log0 = (Returned tool, log0') ->
  In call (issued log (snd (invoke tool raw log))) ->
  1 <= js_length (Request.query (Call.request call)) <= 1000 /\
  Call.collectionId call <> "" /\
  (Request.limit (Call.request call)
   = or_default (Options.defaultLimit options) 10%float \/
   PrimFloat.leb 1 (Request.limit (Call.request call)) = true /\
   PrimFloat.leb (Request.limit (Call.request call)) 100 = true).
Proof.
  intros Hfactory Hin.
  destruct (airweaveSearch_returned _ _ _ _ _ _ _ Hfactory)
    as [key [_ [-> _]]].
  unfold invoke in Hin. cbn [Tool.execute Tool.inputSchema] in Hin.
  destruct (inputSchema raw) as [parsed | ] eqn:Hparsed.
  2:{ cbn [throw snd] in Hin. rewrite issued_same in Hin. destruct Hin. }
  apply inputSchema_spec in Hparsed.
  destruct Hparsed as [props [_ [[_ Hlen] [_ Hlimit]]]].
  destruct (execute_calls _ service (configure key options) parsed log)
    as [Hnone | [cid [Hcid Hone]]].
  - rewrite Hnone in Hin. destruct Hin.
  - rewrite Hone in Hin. destruct Hin as [<- | []].
    cbn [the_call Call.request Call.collectionId search_request
         Request.query Request.limit configure Config.defaultLimit].
    split; [exact Hlen|]. split.
    + apply truthy_string_Some in Hcid. apply Hcid.
    + destruct (Input.limit parsed) as [x | ].
      * right. cbn [nullish]. destruct Hlimit as [_ Hrange]. exact Hrange.
      * left. reflexivity.
Qed.

(** X9: the schema lets an empty-string collection through, and lets the
    collection be left out; such an accepted input, when no collection
    resolves, is not refused as invalid input but makes [execute] throw the
    collection [Error], still without any call. *)
Theorem X9_schema_does_not_guard_collection
  (options : Options.t) (log0 log0' : Log) (tool : Tool.t RemoteFailure)
  (props : list (string * value)) (parsed : Input.t) (log : Log) :
  airweaveSearch service process_env options log0 = (Returned tool, log0') ->
  Tool.inputSchema tool (VObject props) = Some parsed ->
  get props "collection" = VString "" \/
  (get props "collection" = VUndefined /\
   truthy_string (Options.defaultCollection options) = None) ->
  invoke tool (VObject props) log
  = (Thrown (Error collection_required), log).
Proof.
  intros Hfactory Hparsed Hcollection.
  destruct (airweaveSearch_returned _ _ _ _ _ _ _ Hfactory)
    as [key [_ [-> _]]].
  unfold invoke. rewrite Hparsed.
  cbn [Tool.execute Tool.inputSchema] in *.
  apply inputSchema_spec in Hparsed.
  destruct Hparsed as [props' [Hv [_ [Hc _]]]].
  inversion Hv; subst props'; clear Hv.
  apply execute_unresolved.
  cbn [configure Config.defaultCollection].
  destruct (Input.collection parsed) as [c | ].
  - destruct Hcollection as [Hempty | [Habsent _]].
    + rewrite Hc in Hempty. inversion Hempty. reflexivity.
    + rewrite Hc in Habsent. discriminate.
  - destruct Hcollection as [Hempty | [_ Hdefault]].
    + rewrite Hc in Hempty. discriminate.
    + exact Hdefault.
Qed.

(** X10: only [query], [collection] and [limit] matter: two input
    objects that agree on these three properties, whatever else they hold
    and in whatever order, are validated and executed alike. *)
Theorem X10_other_keys_ignored
  (options : Options.t) (log0 log0' : Log) (tool : Tool.t RemoteFailure)
  (props props' : list (string * value)) (log : Log) :
  airweaveSearch service process_env options log0 = (Returned tool, log0') ->
  get props "query" = get props' "query" ->
  get props "collection" = get props' "collection" ->
  get props "limit" = get props' "limit" ->
  Tool.inputSchema tool (VObject props)
  = Tool.inputSchema tool (VObject props') /\
  invoke tool (VObject props) log = invoke tool (VObject props') log.
Proof.
  intros Hfactory Hq Hc Hl.
  destruct (airweaveSearch_returned _ _ _ _ _ _ _ Hfactory)
    as [key [_ [-> _]]].
  assert (Hsame : inputSchema (VObject props) = inputSchema (VObject props')).
  { unfold inputSchema, Zod.field. rewrite Hq, Hc, Hl. reflexivity. }
  split; [exact Hsame|].
  unfold invoke. cbn [Tool.inputSchema]. rewrite Hsame. reflexivity.
Qed.

(** X11: executions do not share anything but the log, which only grows:
    after a sequence of executions there is one outcome per input, and
    the calls added are, in order, one per input whose collection resolves,
    to that collection and with that input's query; equal inputs give
    equal calls again, nothing is remembered from one execution to the
    next. *)
Theorem X11_one_call_per_execution
  (options : Options.t) (log0 log0' : Log) (tool : Tool.t RemoteFailure)
  (inputs : list Input.t) (log : Log) :
  airweaveSearch service process_env options log0 = (Returned tool, log0') ->
  length (fst (execute_each tool inputs log)) = length inputs /\
  (exists calls, snd (execute_each tool inputs log) = log ++ calls) /\
  map (fun call => (Call.collectionId call, Request.query (Call.request call)))
      (issued log (snd (execute_each tool inputs log)))
  = flat_map
      (fun input =>
         match truthy_string
                 (or_else (Input.collection input)
                    (Options.defaultCollection options)) with
         | Some collectionId => [(collectionId, Input.query input)]
         | None => []
         end) inputs.
Proof.
  intros Hfactory.
  destruct (airweaveSearch_returned _ _ _ _ _ _ _ Hfactory)
    as [key [_ [-> _]]].
  destruct (execute_each_log tool_description inputSchema
              (configure key options) inputs log) as [Hlen Hlog].
  split; [exact Hlen|]. rewrite Hlog.
  split; [eexists; reflexivity|].
  rewrite issued_app. clear Hlen Hlog.
  induction inputs as [ | input rest IH]; [reflexivity|].
  cbn [flat_map]. rewrite map_app, IH. f_equal.
  cbn [configure Config.defaultCollection].
  destruct (truthy_string
              (or_else (Input.collection input)
                 (Options.defaultCollection options))); reflexivity.
Qed.

End Extras.

(** X12: every whole number from 1 to 100 is a limit the schema
    accepts, next to any query of [.length] 1 to 1000. *)
Theorem X12_whole_limits_accepted (n : nat) (q : string) :
  1 <= n <= 100 ->
  1 <= js_length q <= 1000 ->
  isInteger (whole n) = true /\
  inputSchema (VObject [("query", VString q); ("limit", VNumber (whole n))])
  = Some (Input.Build q None (Some (whole n))).
Proof.
  intros Hn Hq.
  pose proof whole_limits_in_range as Hall.
  rewrite forallb_forall in Hall.
  specialize (Hall n). rewrite in_seq in Hall.
  assert (Hin : 1 <= n < 1 + 100) by lia.
  apply Hall in Hin. apply andb_true_iff in Hin. destruct Hin as [Hin Hint].
  apply andb_true_iff in Hin. destruct Hin as [Hlo Hhi].
  split; [exact Hint|].
  apply inputSchema_spec. eexists. split; [reflexivity|].
  cbn [Input.query Input.collection Input.limit].
  split; [split; [reflexivity | exact Hq]|].
  split; [reflexivity|].
  split; [reflexivity|]. split; assumption.
Qed.

Lemma preflight_Ready (env : string -> option string) (COLLECTION : string) :
  preflight env = Ready COLLECTION <->
  truthy_string (env "AIRWEAVE_API_KEY") <> None /\
  truthy_string (env "OPENAI_API_KEY") <> None /\
  truthy_string (env "AIRWEAVE_COLLECTION") = Some COLLECTION.
Proof.
  unfold preflight, missing, requiredEnvVars, unset. cbn [filter].
  destruct (truthy_string (env "AIRWEAVE_API_KEY")) as [k1 | ];
    destruct (truthy_string (env "OPENAI_API_KEY")) as [k2 | ];
    cbn [length Nat.ltb Nat.leb].
  - destruct (truthy_string (env "AIRWEAVE_COLLECTION")) as [c | ]; split.
    + intros H; inversion H; subst.
      repeat split; discriminate || reflexivity.
    + intros [_ [_ H]]; inversion H; reflexivity.
    + discriminate.
    + intros [_ [_ H]]; discriminate.
  - split; [discriminate | intros [_ [H _]]; contradiction].
  - split; [discriminate | intros [H _]; contradiction].
  - split; [discriminate | intros [H _]; contradiction].
Qed.


(** X14: once the script's checks have passed, its direct execution can
    meet neither of the adapter's own errors: the tool is built with the
    environment's key, and exactly one request goes out, to [COLLECTION],
    with query ["test"], limit 5, answer generation on and the other two
    flags at their defaults, through a client whose base URL is
    [AIRWEAVE_BASE_URL] when that is non-empty; the outcome is the
    service's: its rejection, or the result object of its response. *)
Theorem X14_direct_execution_after_preflight
  (E : Type) (service : Log -> Call.t -> E + Response.t)
  (env : string -> option string) (COLLECTION : string) (log : Log) :
  preflight env = Ready COLLECTION ->
  exists key call,
    env "AIRWEAVE_API_KEY" = Some key /\ key <> "" /\
    call = Call.Build
             (Client.Build key (truthy_string (env "AIRWEAVE_BASE_URL"))
                "vercel-ai-sdk" "1.0.0")
             COLLECTION
             (Request.Build "test" 5%float true true true) /\
    direct_execution service env COLLECTION log
    = (match service log call with
       | inr response => Returned (search_result response)
       | inl e => Thrown (Rejection e)
       end, log ++ [call]).
Proof.
  intros Hready.
  apply preflight_Ready in Hready.
  destruct Hready as [Hkey [_ Hcollection]].
  destruct (truthy_string (env "AIRWEAVE_API_KEY")) as [key | ] eqn:K;
    [ | contradiction].
  exists key. eexists.
  pose proof K as K'. apply truthy_string_Some in K'. destruct K' as [Kenv Kne].
  split; [exact Kenv|]. split; [exact Kne|]. split; [reflexivity|].
  unfold direct_execution, bind.
  rewrite (airweaveSearch_with_key _ service env
             (directSearch_options env COLLECTION) log key K).
  cbn [Tool.execute].
  rewrite (execute_resolved _ service
             (configure key (directSearch_options env COLLECTION))
             (Input.Build "test" None (Some 5%float)) log COLLECTION).
  - unfold the_call, search_request, configure, directSearch_options.
    cbn [Config.client Config.defaultLimit Config.generateAnswer
         Config.expandQuery Config.rerank Options.baseUrl
         Options.defaultLimit Options.generateAnswer Options.expandQuery
         Options.rerank Input.query Input.limit nullish or_default].
    rewrite truthy_string_idem. reflexivity.
  - cbn [or_else Input.collection configure Config.defaultCollection
         directSearch_options Options.defaultCollection].
    apply truthy_string_Some.
    apply truthy_string_Some in Hcollection. split; [reflexivity|].
    apply Hcollection.
Qed.

(** ** Concrete runs of the further properties *)

Lemma X2_environment_key_used_witness :
  exists tool,
    airweaveSearch service_doc env_with_key kb1_options [] = (Returned tool, [])
    /\ forall input log call,
         In call (issued log (snd (Tool.execute tool input log))) ->
         Client.apiKey (Call.client call) = "sk-test".
Proof.
  refine (X2_environment_key_used string service_doc env_with_key
            kb1_options "sk-test" [] eq_refl eq_refl _).
  discriminate.
Defined.

Lemma X3_empty_explicit_key_rejected_witness :
  airweaveSearch service_doc env_with_key
    (Options.Build (Some "") None (Some "kb1") None None None None) []
  = (Thrown (Error apiKey_required), []).
Proof.
  exact (X3_empty_explicit_key_rejected string service_doc env_with_key
           (Options.Build (Some "") None (Some "kb1") None None None None)
           [] eq_refl).
Defined.

Lemma X4_calls_use_the_constructed_client_witness :
  let options :=
    Options.Build None (Some "") (Some "kb1") None None None None in
  let call :=
    Call.Build (Client.Build "sk-test" None "vercel-ai-sdk" "1.0.0") "kb1"
      (Request.Build "budget" 10%float false true true) in
  Client.baseUrl (Call.client call) = truthy_string (Options.baseUrl options)
  /\ Client.baseUrl (Call.client call) = None.
Proof.
  intros options call.
  destruct (X4_calls_use_the_constructed_client string service_doc
              env_with_key options [] []
              (Tool.Build tool_description inputSchema
                 (execute service_doc (configure "sk-test" options)))
              budget_input [] call eq_refl (or_introl eq_refl))
    as (_ & Hbase & Hempty & _).
  split; [exact Hbase | exact (Hempty eq_refl)].
Defined.

Lemma X5_effective_limit_witness :
  let options :=
    Options.Build None None (Some "kb1") (Some 20%float) None None None in
  let tool :=
    Tool.Build tool_description inputSchema
      (execute service_doc (configure "sk-test" options)) in
  exists call,
    issued [] (snd (Tool.execute tool
                      (Input.Build "q" None (Some 7%float)) [])) = [call] /\
    Request.limit (Call.request call) = 7%float.
Proof.
  intros options tool. eexists. split; [reflexivity|].
  apply (X5_effective_limit string service_doc env_with_key options [] []
           tool (Input.Build "q" None (Some 7%float)) []);
    [reflexivity | left; reflexivity].
Defined.

Lemma X6_execute_does_not_validate_witness :
  let tool :=
    Tool.Build tool_description inputSchema
      (execute service_doc (configure "sk-test" kb1_options)) in
  inputSchema (VObject [("query", VString ""); ("limit", VNumber 0%float)])
  = None /\
  exists call,
    issued [] (snd (Tool.execute tool
                      (Input.Build "" None (Some 0%float)) [])) = [call] /\
    Call.collectionId call = "kb1" /\
    "kb1" <> "" /\
    Request.query (Call.request call) = "".
Proof.
  intros tool. split; [reflexivity|].
  exact (X6_execute_does_not_validate string service_doc env_with_key
           kb1_options [] [] tool "" None (Some 0%float) "kb1" []
           eq_refl eq_refl).
Defined.

Lemma X7_execute_outcomes_witness :
  let tool :=
    Tool.Build tool_description inputSchema
      (execute service_down (configure "sk-test" kb1_options)) in
  exists call,
    snd (Tool.execute tool budget_input []) = [] ++ [call] /\
    fst (Tool.execute tool budget_input [])
    = Thrown (Rejection "503 Service Unavailable").
Proof.
  intros tool.
  destruct (X7_execute_outcomes string service_down env_with_key kb1_options
              [] [] tool budget_input [] eq_refl)
    as [[Hnone _] | (cid & call & _ & _ & Hlog & Houtcome)].
  - discriminate Hnone.
  - exists call. split; [exact Hlog | reflexivity].
Defined.

Lemma X8_validated_requests_witness :
  let tool :=
    Tool.Build tool_description inputSchema
      (execute service_doc (configure "sk-test" kb1_options)) in
  let raw := VObject [("query", VString "budget"); ("limit", VNumber 50%float)] in
  exists call,
    issued [] (snd (invoke tool raw [])) = [call] /\
    1 <= js_length (Request.query (Call.request call)) <= 1000 /\
    Call.collectionId call <> "" /\
    PrimFloat.leb (Request.limit (Call.request call)) 100 = true.
Proof.
  intros tool raw. eexists. split; [reflexivity|].
  destruct (X8_validated_requests string service_doc env_with_key kb1_options
              [] [] tool raw [] _ eq_refl (or_introl eq_refl))
    as (Hq & Hc & _).
  split; [exact Hq|]. split; [exact Hc | reflexivity].
Defined.

Lemma X9_schema_does_not_guard_collection_witness :
  let tool :=
    Tool.Build tool_description inputSchema
      (execute service_doc (configure "sk-test" kb1_options)) in
  invoke tool (VObject [("query", VString "budget");
                        ("collection", VString "")]) []
  = (Thrown (Error collection_required), []).
Proof.
  intros tool.
  exact (X9_schema_does_not_guard_collection string service_doc env_with_key
           kb1_options [] [] tool
           [("query", VString "budget"); ("collection", VString "")]
           (Input.Build "budget" (Some "") None) []
           eq_refl eq_refl (or_introl eq_refl)).
Defined.

Lemma X10_other_keys_ignored_witness :
  let tool :=
    Tool.Build tool_description inputSchema
      (execute service_doc (configure "sk-test" kb1_options)) in
  invoke tool (VObject [("rerank", VBool false); ("limit", VNumber 5%float);
                        ("query", VString "budget")]) []
  = invoke tool (VObject [("query", VString "budget");
                          ("limit", VNumber 5%float)]) [].
Proof.
  intros tool.
  exact (proj2 (X10_other_keys_ignored string service_doc env_with_key
                  kb1_options [] [] tool
                  [("rerank", VBool false); ("limit", VNumber 5%float);
                   ("query", VString "budget")]
                  [("query", VString "budget"); ("limit", VNumber 5%float)]
                  [] eq_refl eq_refl eq_refl eq_refl)).
Defined.

Lemma X11_one_call_per_execution_witness :
  let tool :=
    Tool.Build tool_description inputSchema
      (execute service_down (configure "sk-test" kb1_options)) in
  let inputs :=
    [budget_input; Input.Build "q" (Some "") None; budget_input;
     Input.Build "q" (Some "kb2") None] in
  map (fun call => (Call.collectionId call, Request.query (Call.request call)))
      (issued [] (snd (execute_each tool inputs [])))
  = [("kb1", "budget"); ("kb1", "budget"); ("kb2", "q")].
Proof.
  intros tool inputs.
  destruct (X11_one_call_per_execution string service_down env_with_key
              kb1_options [] [] tool inputs [] eq_refl) as (_ & _ & Hcalls).
  exact Hcalls.
Defined.

Lemma X12_whole_limits_accepted_witness :
  isInteger (whole 100) = true /\
  inputSchema (VObject [("query", VString "budget");
                        ("limit", VNumber (whole 100))])
  = Some (Input.Build "budget" None (Some (whole 100))).
Proof.
  apply (X12_whole_limits_accepted 100 "budget"); simpl; lia.
Defined.

Lemma X14_direct_execution_after_preflight_witness :
  exists key call,
    env_e2e "AIRWEAVE_API_KEY" = Some key /\ key <> "" /\
    call = Call.Build
             (Client.Build key (truthy_string (env_e2e "AIRWEAVE_BASE_URL"))
                "vercel-ai-sdk" "1.0.0")
             "kb1"
             (Request.Build "test" 5%float true true true) /\
    direct_execution service_doc env_e2e "kb1" []
    = (match service_doc [] call with
       | inr response => Returned (search_result response)
       | inl e => Thrown (Rejection e)
       end, [] ++ [call]).
Proof.
  exact (X14_direct_execution_after_preflight string service_doc env_e2e
           "kb1" [] eq_refl).
Defined.
